(** * Movie CRUD client (script.js): a shallow embedding and its properties

    The script keeps one global array [allMovies] (the cache), writes the
    listing into the element [movie-list], and talks to a REST collection
    through [fetch].  Handlers are embedded as functions over an explicit
    [World]; every alert, prompt, confirmation, request, console error and
    form reset is appended, in program order, to the world's [trace]. *)

From Stdlib Require Import ZArith Lia List Bool Ascii String.
From Stdlib Require Import DecimalString DecimalPos.
Import ListNotations.

Local Open Scope string_scope.
Local Open Scope Z_scope.

(** ** JavaScript strings and values *)

(** A string is a sequence of code units; the embedding covers code units
    0..255 (the Latin-1 range of UTF-16), one [ascii] each. *)

Definition dquote : ascii := ascii_of_nat 34.
Definition squote : ascii := ascii_of_nat 39.
Definition newline : ascii := ascii_of_nat 10.

Definition str1 (c : ascii) : string := String c EmptyString.

Module Js.

(** The values that reach the script's fields: strings, integral numbers,
    NaN (from [parseInt]), and null/undefined (from JSON or absent keys). *)
Inductive value : Type :=
| VString (s : string)
| VNumber (n : Z)
| VNaN
| VNull
| VUndefined.

(** ToString, as applied by a template literal's substitution. Integral
    numbers print in decimal (exact below 10^21). *)
Definition toString (v : value) : string :=
  match v with
  | VString s => s
  | VNumber n => NilZero.string_of_int (Z.to_int n)
  | VNaN => "NaN"
  | VNull => "null"
  | VUndefined => "undefined"
  end.

(** [!v] for a string [v]: only the empty string is falsy. *)
Definition falsy (s : string) : bool :=
  match s with
  | EmptyString => true
  | String _ _ => false
  end.

(** [isNaN(v)] on the results of [parseInt]. *)
Definition isNaN (v : value) : bool :=
  match v with
  | VNaN => true
  | _ => false
  end.

(** [String.prototype.toLowerCase] on code units 0..255: A-Z and the
    Latin-1 capitals U+00C0..U+00DE (except the multiplication sign U+00D7)
    move up by 32; every other code unit is its own lower case. *)
Definition lowerUnit (c : ascii) : ascii :=
  let n := nat_of_ascii c in
  if ((65 <=? n) && (n <=? 90))%nat then ascii_of_nat (n + 32)
  else if ((192 <=? n) && (n <=? 222) && negb (n =? 215))%nat
       then ascii_of_nat (n + 32)
  else c.

Fixpoint toLowerCase (s : string) : string :=
  match s with
  | EmptyString => EmptyString
  | String c r => String (lowerUnit c) (toLowerCase r)
  end.

(** [s.startsWith(t)]-style test used by the scan in [includes]. *)
Fixpoint startsWith (s t : string) {struct t} : bool :=
  match t with
  | EmptyString => true
  | String b t' =>
      match s with
      | EmptyString => false
      | String a s' => Ascii.eqb a b && startsWith s' t'
      end
  end.

(** [s.includes(t)]: is there a position of [s] at which [t] starts? *)
Fixpoint includes (s t : string) : bool :=
  startsWith s t ||
  match s with
  | EmptyString => false
  | String _ s' => includes s' t
  end.

(** [s.replace(/c/g, by)] for a one-character pattern: the global flag
    makes the replacement run over every match, left to right. *)
Fixpoint replaceAll (c : ascii) (by_ : string) (s : string) : string :=
  match s with
  | EmptyString => EmptyString
  | String a r =>
      if Ascii.eqb a c then by_ ++ replaceAll c by_ r
      else String a (replaceAll c by_ r)
  end.

(** *** parseInt *)

(** StrWhiteSpaceChar within 0..255: TAB, LF, VT, FF, CR, SP, NBSP. *)
Definition isWhiteSpace (c : ascii) : bool :=
  let n := nat_of_ascii c in
  (((9 <=? n) && (n <=? 13)) || (n =? 32) || (n =? 160))%nat.

Fixpoint trimStart (s : string) : string :=
  match s with
  | EmptyString => EmptyString
  | String c r => if isWhiteSpace c then trimStart r else s
  end.

(** The numeric value of a digit in the given radix, if it is one. *)
Definition digitValue (radix : Z) (c : ascii) : option Z :=
  let n := Z.of_nat (nat_of_ascii c) in
  let d :=
    if (48 <=? n) && (n <=? 57) then Some (n - 48)
    else if (97 <=? n) && (n <=? 122) then Some (n - 87)
    else if (65 <=? n) && (n <=? 90) then Some (n - 55)
    else None in
  match d with
  | Some k => if k <? radix then Some k else None
  | None => None
  end.

(** Reads the longest prefix of digits; [acc] is [None] until a digit has
    been seen. *)
Fixpoint readDigits (radix : Z) (acc : option Z) (s : string) : option Z :=
  match s with
  | EmptyString => acc
  | String c r =>
      match digitValue radix c with
      | Some d =>
          readDigits radix
            (Some (match acc with Some a => a * radix + d | None => d end)) r
      | None => acc
      end
  end.

Definition stripHexPrefix (s : string) : option string :=
  match s with
  | String z (String x r) =>
      if Ascii.eqb z "0" && (Ascii.eqb x "x" || Ascii.eqb x "X")
      then Some r else None
  | _ => None
  end.

(** [parseInt(s)] with the radix left out: leading white space is skipped,
    one sign is read, a 0x/0X prefix selects radix 16 and otherwise the
    radix is 10; the longest digit prefix gives the value and its absence
    gives NaN.  The value is kept as the exact integer (equal to the
    JavaScript number for magnitudes up to 2^53). *)
Definition parseInt (input : string) : value :=
  let s := trimStart input in
  let '(sign, s) :=
    match s with
    | String c r =>
        if Ascii.eqb c "-" then (-1, r)
        else if Ascii.eqb c "+" then (1, r)
        else (1, s)
    | EmptyString => (1, s)
    end in
  let '(radix, s) :=
    match stripHexPrefix s with
    | Some r => (16, r)
    | None => (10, s)
    end in
  match readDigits radix None s with
  | Some n => VNumber (sign * n)
  | None => VNaN
  end.

End Js.

Import Js.

(** ** Data model *)

(** A movie as the script reads it.  [title] and [genre] are strings: the
    script itself only ever sends the text of an input or of a prompt.
    [id] is whatever the server assigned, and [year] is a number or, after
    a NaN went through JSON, null. *)
Record Movie : Type := mkMovie {
  id : value;
  title : string;
  genre : string;
  year : value
}.

(** The part of the document the script touches. *)
Record Element : Type := mkElement {
  tagName : string;
  classList : list string;
  innerHTML : string
}.

(** A child of [movieListDiv]: either what the HTML parser built from
    markup assigned to [innerHTML] (kept as that markup), or an element
    attached with [appendChild]. *)
Inductive Child : Type :=
| Parsed (markup : string)
| Attached (e : Element).

(** The three inputs of [add-movie-form]. *)
Record Form : Type := mkForm {
  titleInput : string;
  genreInput : string;
  yearInput : string
}.

(** Modelled from the spec: the page markup that declares the inputs of
    [add-movie-form] is not part of the sources; the spec says a successful
    create "clears the input form", so the inputs' default values, which
    [form.reset()] restores, are empty. *)
Definition formDefaults : Form := mkForm EmptyString EmptyString EmptyString.

(** ** Requests, responses and the trace *)

Inductive Method : Type := GET | POST | PUT | DELETE.

(** The argument of [fetch]. The body is the object handed to
    [JSON.stringify], key by key in the order the literal lists them. *)
Record Request : Type := mkRequest {
  method : Method;
  url : string;
  headers : list (string * string);
  body : option (list (string * value))
}.

(** The promise chain that a [fetch] call hangs its callbacks on. *)
Inductive Chain : Type :=
| FetchMoviesChain
| AddMovieChain
| UpdateMovieChain
| DeleteMovieChain.

(** What a thrown or rejected error carries. *)
Inductive Error : Type :=
| NetworkError
| JsonError
| ErrorMessage (msg : string).

(** How the promise returned by [fetch] settles: it rejects on a network
    failure, or resolves with a response.  [json] is what [response.json()]
    would give: [None] when the body is not JSON, and otherwise the array
    of movies of the backend's contract (the POST and PUT callbacks drop
    the parsed value, so only its presence matters there). *)
Inductive Outcome : Type :=
| Rejected
| Responded (status : Z) (json : option (list Movie)).

(** [response.ok]: the status is in 200..299. *)
Definition ok (status : Z) : bool := (200 <=? status) && (status <=? 299).

(** Everything the script does that the user, the network or the console
    can observe, in the order it is done. *)
Inductive Effect : Type :=
| PreventDefault
| Alert (msg : string)
| Confirm (msg : string) (answer : bool)
| Prompt (msg : string) (default : value) (answer : option string)
| Fetch (r : Request) (k : Chain)
| ConsoleError (label : string) (e : Error)
| FormReset.

Record World : Type := mkWorld {
  allMovies : list Movie;
  movieListDiv : list Child;
  searchInput : string;
  form : Form;
  trace : list Effect
}.

Definition emit (e : Effect) (w : World) : World :=
  mkWorld (allMovies w) (movieListDiv w) (searchInput w) (form w)
          (trace w ++ [e]).

Definition setAllMovies (ms : list Movie) (w : World) : World :=
  mkWorld ms (movieListDiv w) (searchInput w) (form w) (trace w).

Definition setMovieListDiv (cs : list Child) (w : World) : World :=
  mkWorld (allMovies w) cs (searchInput w) (form w) (trace w).

Definition setSearchInput (s : string) (w : World) : World :=
  mkWorld (allMovies w) (movieListDiv w) s (form w) (trace w).

Definition setForm (f : Form) (w : World) : World :=
  mkWorld (allMovies w) (movieListDiv w) (searchInput w) f (trace w).

(** ** The script *)

Definition API_URL : string := "http://localhost:3000/movies".

(** [escapeQuotes(str)]: anything but a string is returned as it is. *)
Definition escapeQuotes (str : value) : value :=
  match str with
  | VString s => VString (replaceAll squote "&#39;" s)
  | other => other
  end.

(** Assigning [innerHTML] drops every child and installs what the markup
    parses to (nothing, for the empty string). *)
Definition assignInnerHTML (markup : string) : list Child :=
  if falsy markup then [] else [Parsed markup].

Definition placeholder : string :=
  "<p>No movies found matching your criteria.</p>".

Definition indent12 : string := "            ".

(** The JavaScript inside the edit button's [onclick] attribute. *)
Definition editCall (movie : Movie) : string :=
  let safeTitle := escapeQuotes (VString (title movie)) in
  let safeGenre := escapeQuotes (VString (genre movie)) in
  "editMoviePrompt(" ++ toString (id movie) ++ ", '" ++ toString safeTitle
  ++ "', " ++ toString (year movie) ++ "," ++ str1 newline
  ++ "                '" ++ toString safeGenre ++ "')".

Definition deleteCall (movie : Movie) : string :=
  "deleteMovie(" ++ toString (id movie) ++ ")".

(** The visible line of a row. *)
Definition rowText (movie : Movie) : string :=
  "<p><strong>" ++ title movie ++ "</strong> (" ++ toString (year movie)
  ++ ") - " ++ genre movie ++ "</p>".

(** The template literal assigned to [movieElement.innerHTML]. *)
Definition rowMarkup (movie : Movie) : string :=
  str1 newline ++ indent12 ++ rowText movie
  ++ str1 newline ++ indent12
  ++ "<button onclick=" ++ str1 dquote ++ editCall movie ++ str1 dquote
  ++ ">Edit</button>"
  ++ str1 newline ++ indent12
  ++ "<button onclick=" ++ str1 dquote ++ deleteCall movie ++ str1 dquote
  ++ ">Delete</button>"
  ++ str1 newline ++ "        ".

(** The body of the [forEach] callback: one [div.movie-item] per movie. *)
Definition movieElement (movie : Movie) : Element :=
  mkElement "div" ["movie-item"] (rowMarkup movie).

Fixpoint appendRows (movies : list Movie) (children : list Child)
  : list Child :=
  match movies with
  | [] => children
  | movie :: rest => appendRows rest (children ++ [Attached (movieElement movie)])
  end.

Definition renderMovies (moviesToDisplay : list Movie) (w : World) : World :=
  let w := setMovieListDiv (assignInnerHTML EmptyString) w in
  if (Z.of_nat (List.length moviesToDisplay) =? 0) then
    setMovieListDiv (assignInnerHTML placeholder) w
  else
    setMovieListDiv (appendRows moviesToDisplay (movieListDiv w)) w.

Definition fetchMovies (w : World) : World :=
  emit (Fetch (mkRequest GET API_URL [] None) FetchMoviesChain) w.

(** The callbacks chained on the [fetch] of [fetchMovies]. *)
Definition fetchMoviesSettled (o : Outcome) (w : World) : World :=
  let label := "Error fetching movies:" in
  match o with
  | Rejected => emit (ConsoleError label NetworkError) w
  | Responded status json =>
      if negb (ok status) then
        emit (ConsoleError label
                (ErrorMessage ("HTTP error! status: "
                               ++ toString (VNumber status)))) w
      else
        match json with
        | None => emit (ConsoleError label JsonError) w
        | Some movies =>
            let w := setAllMovies movies w in
            renderMovies (allMovies w) w
        end
  end.

(** The [input] listener of the search box. *)
Definition matches (searchTerm : string) (movie : Movie) : bool :=
  let titleMatch := includes (toLowerCase (title movie)) searchTerm in
  let genreMatch := includes (toLowerCase (genre movie)) searchTerm in
  titleMatch || genreMatch.

Definition filteredMovies (w : World) : list Movie :=
  let searchTerm := toLowerCase (searchInput w) in
  filter (matches searchTerm) (allMovies w).

Definition onSearchInput (w : World) : World :=
  renderMovies (filteredMovies w) w.

Definition jsonHeaders : list (string * string) :=
  [("Content-Type", "application/json")].

(** The [submit] listener of the form. *)
Definition onSubmit (w : World) : World :=
  let w := emit PreventDefault w in
  let title := titleInput (form w) in
  let genre := genreInput (form w) in
  let yearInput := yearInput (form w) in
  if falsy title || falsy genre || falsy yearInput then
    emit (Alert "Please fill in all fields.") w
  else
    let newMovie :=
      [("title", VString title);
       ("genre", VString genre);
       ("year", parseInt yearInput)] in
    emit (Fetch (mkRequest POST API_URL jsonHeaders (Some newMovie))
                AddMovieChain) w.

(** The callbacks chained on the POST: [this.reset()] restores the form's
    defaults, then the list is fetched again. *)
Definition addMovieSettled (o : Outcome) (w : World) : World :=
  let label := "Error adding movie:" in
  match o with
  | Rejected => emit (ConsoleError label NetworkError) w
  | Responded status json =>
      if negb (ok status) then
        emit (ConsoleError label (ErrorMessage "Failed to add movie")) w
      else
        match json with
        | None => emit (ConsoleError label JsonError) w
        | Some _ =>
            let w := emit FormReset (setForm formDefaults w) in
            fetchMovies w
        end
  end.

Definition updateMovie (movieId : value)
    (updatedMovieData : list (string * value)) (w : World) : World :=
  emit (Fetch (mkRequest PUT (API_URL ++ "/" ++ toString movieId)
                 jsonHeaders (Some updatedMovieData))
              UpdateMovieChain) w.

Definition updateMovieSettled (o : Outcome) (w : World) : World :=
  let label := "Error updating movie:" in
  match o with
  | Rejected => emit (ConsoleError label NetworkError) w
  | Responded status json =>
      if negb (ok status) then
        emit (ConsoleError label (ErrorMessage "Failed to update movie")) w
      else
        match json with
        | None => emit (ConsoleError label JsonError) w
        | Some _ => fetchMovies w
        end
  end.

(** [editMoviePrompt]: the three prompts are shown one after the other,
    whatever the earlier answers; an answer is [None] when the user
    cancelled the prompt. *)
Definition editMoviePrompt (id currentTitle currentYear currentGenre : value)
    (titleAnswer yearAnswer genreAnswer : option string) (w : World) : World :=
  let w := emit (Prompt "Enter new Title:" currentTitle titleAnswer) w in
  let w := emit (Prompt "Enter new Year:" currentYear yearAnswer) w in
  let w := emit (Prompt "Enter new Genre:" currentGenre genreAnswer) w in
  match titleAnswer, yearAnswer, genreAnswer with
  | Some newTitle, Some newYearStr, Some newGenre =>
      let newYear := parseInt newYearStr in
      if isNaN newYear then
        emit (Alert "Year must be a number.") w
      else
        let updatedMovieData :=
          [("title", VString newTitle);
           ("year", newYear);
           ("genre", VString newGenre)] in
        updateMovie id updatedMovieData w
  | _, _, _ => w
  end.

Definition deleteMovie (movieId : value) (answer : bool) (w : World) : World :=
  let w := emit (Confirm "Are you sure you want to delete this movie?" answer) w in
  if negb answer then w
  else
    emit (Fetch (mkRequest DELETE (API_URL ++ "/" ++ toString movieId) [] None)
                DeleteMovieChain) w.

(** The callback of the DELETE reads no body. *)
Definition deleteMovieSettled (o : Outcome) (w : World) : World :=
  let label := "Error deleting movie:" in
  match o with
  | Rejected => emit (ConsoleError label NetworkError) w
  | Responded status _ =>
      if negb (ok status) then
        emit (ConsoleError label (ErrorMessage "Failed to delete movie")) w
      else fetchMovies w
  end.

(** ** The event loop *)

(** What can happen to the page: the document finishes loading, the user
    types in the search box or in the form, submits the form, clicks a
    row's button (answering the dialogs it opens), or a pending [fetch]
    settles. *)
Inductive Event : Type :=
| DOMContentLoaded
| SearchInput (text : string)
| FormInput (f : Form)
| Submit
| ClickEdit (id currentTitle currentYear currentGenre : value)
            (titleAnswer yearAnswer genreAnswer : option string)
| ClickDelete (movieId : value) (answer : bool)
| Settled (k : Chain) (o : Outcome).

Definition settled (k : Chain) : Outcome -> World -> World :=
  match k with
  | FetchMoviesChain => fetchMoviesSettled
  | AddMovieChain => addMovieSettled
  | UpdateMovieChain => updateMovieSettled
  | DeleteMovieChain => deleteMovieSettled
  end.

Definition step (e : Event) (w : World) : World :=
  match e with
  | DOMContentLoaded => fetchMovies w
  | SearchInput text => onSearchInput (setSearchInput text w)
  | FormInput f => setForm f w
  | Submit => onSubmit w
  | ClickEdit id t y g a1 a2 a3 => editMoviePrompt id t y g a1 a2 a3 w
  | ClickDelete movieId answer => deleteMovie movieId answer w
  | Settled k o => settled k o w
  end.

Definition run (es : list Event) (w : World) : World :=
  fold_left (fun w e => step e w) es w.

(** The page before anything ran. *)
Definition initial : World :=
  mkWorld [] [] EmptyString formDefaults [].

(** ** Observations used by the statements *)

(** The requests sent so far, oldest first. *)
Fixpoint requests (t : list Effect) : list Request :=
  match t with
  | [] => []
  | Fetch r _ :: t' => r :: requests t'
  | _ :: t' => requests t'
  end.

(** The row elements of the listing: the attached children that carry the
    class [movie-item]. *)
Definition isRow (c : Child) : bool :=
  match c with
  | Attached e => existsb (String.eqb "movie-item") (classList e)
  | Parsed _ => false
  end.

Definition rows (children : list Child) : list Child := filter isRow children.

(** Does the character occur in the string? *)
Fixpoint occurs (c : ascii) (s : string) : bool :=
  match s with
  | EmptyString => false
  | String a r => Ascii.eqb a c || occurs c r
  end.

(** How the HTML tokenizer delimits a double-quoted attribute value: it
    ends at the first double quote. *)
Fixpoint attributeValue (s : string) : string :=
  match s with
  | EmptyString => EmptyString
  | String a r => if Ascii.eqb a dquote then EmptyString
                  else String a (attributeValue r)
  end.

(** [t] occurs in [s] as a contiguous substring. *)
Definition Substring (t s : string) : Prop :=
  exists pre post, s = pre ++ t ++ post.

(** [r] is the subsequence of [l] that keeps, in order, exactly the
    elements satisfying [P]. *)
Inductive Selects {A : Type} (P : A -> Prop) : list A -> list A -> Prop :=
| Selects_nil : Selects P [] []
| Selects_keep x l r : P x -> Selects P l r -> Selects P (x :: l) (x :: r)
| Selects_drop x l r : ~ P x -> Selects P l r -> Selects P (x :: l) r.

(** The filter predicate in the specification's words: the lower-cased
    query is a substring of the lower-cased title or of the lower-cased
    genre. *)
Definition MatchesQuery (q : string) (r : Movie) : Prop :=
  Substring (toLowerCase q) (toLowerCase (title r))
  \/ Substring (toLowerCase q) (toLowerCase (genre r)).

(** A load fails on a network error or on a status outside 200..299. *)
Definition failure (o : Outcome) : bool :=
  match o with
  | Rejected => true
  | Responded status _ => negb (ok status)
  end.

(** A load succeeds when the status is in 200..299 and the body is the
    JSON array of the collection. *)
Definition success (o : Outcome) : option (list Movie) :=
  match o with
  | Responded status (Some movies) => if ok status then Some movies else None
  | _ => None
  end.

(** A create, update or delete succeeded: the status is in 200..299 and,
    for create and update, whose callbacks parse the body, the body is
    JSON. *)
Definition mutationSucceeded (k : Chain) (o : Outcome) : bool :=
  match k, o with
  | AddMovieChain, Responded status (Some _) => ok status
  | UpdateMovieChain, Responded status (Some _) => ok status
  | DeleteMovieChain, Responded status _ => ok status
  | _, _ => false
  end.

Definition refetch : Effect :=
  Fetch (mkRequest GET API_URL [] None) FetchMoviesChain.

(** The records of the specification's scenario. *)
Definition dune : Movie := mkMovie (VNumber 1) "Dune" "Sci-Fi" (VNumber 2021).
Definition heat : Movie := mkMovie (VNumber 2) "Heat" "Crime" (VNumber 1995).

(** A record whose title holds double quotes, and one whose title holds
    single quotes and markup. *)
Definition sayHi : Movie :=
  mkMovie (VNumber 1) ("Say " ++ str1 dquote ++ "Hi" ++ str1 dquote)
          "Drama" (VNumber 2021).
Definition itsBold : Movie :=
  mkMovie (VNumber 3) "<b>It's</b>" "Rock'n'Roll" (VNumber 1999).

(** The create form filled with a year that is not a number. *)
Definition abcdForm : Form := mkForm "Dune" "Sci-Fi" "abcd".

(** How often the character occurs in the string. *)
Fixpoint count (c : ascii) (s : string) : nat :=
  match s with
  | EmptyString => O
  | String a r => ((if Ascii.eqb a c then 1 else 0) + count c r)%nat
  end.







(** Every DELETE request of the trace comes directly after a confirmation
    that was accepted; [prev] is the effect before the trace. *)
Fixpoint guarded (prev : option Effect) (t : list Effect) : bool :=
  match t with
  | [] => true
  | e :: t' =>
      match e with
      | Fetch r _ =>
          match method r with
          | DELETE =>
              match prev with
              | Some (Confirm _ true) => true
              | _ => false
              end
          | _ => true
          end
      | _ => true
      end && guarded (Some e) t'
  end.

(** * Properties *)

(** ** Library functions on sample inputs *)

Example parseInt_1999 : parseInt "1999" = VNumber 1999.
Proof. reflexivity. Qed.

Example parseInt_abcd : parseInt "abcd" = VNaN.
Proof. reflexivity. Qed.

Example parseInt_prefix : parseInt "  -12px" = VNumber (-12).
Proof. reflexivity. Qed.

Example parseInt_hex : parseInt "0x1F" = VNumber 31.
Proof. reflexivity. Qed.

Example toString_year : toString (VNumber 2021) = "2021".
Proof. reflexivity. Qed.

Example toLowerCase_SciFi : toLowerCase "Sci-Fi" = "sci-fi".
Proof. reflexivity. Qed.

Example toString_negative : toString (VNumber (-5)) = "-5".
Proof. reflexivity. Qed.

Example toString_zero : toString (VNumber 0) = "0".
Proof. reflexivity. Qed.

(** ** Strings *)


Lemma append_assoc (a b c : string) : (a ++ b) ++ c = a ++ b ++ c.
Proof. induction a as [|x a IH]; simpl; [reflexivity | now rewrite IH]. Qed.

Lemma startsWith_spec (s t : string) :
  startsWith s t = true <-> exists post, s = t ++ post.
Proof.
  revert s; induction t as [|b t IH]; intros s; simpl.
  - split; [intros _; now exists s | reflexivity].
  - destruct s as [|a s].
    + split; [discriminate | intros [post H]; discriminate].
    + rewrite andb_true_iff, Ascii.eqb_eq, IH. split.
      * intros [-> [post ->]]. now exists post.
      * intros [post H]. injection H as -> ->. split; [reflexivity | now exists post].
Qed.

Lemma includes_spec (s t : string) :
  includes s t = true <-> Substring t s.
Proof.
  unfold Substring. induction s as [|a s IH].
  - cbn [includes]. rewrite orb_false_r, startsWith_spec. split.
    + intros [post H]. now exists EmptyString, post.
    + intros [pre [post H]]. destruct pre; [now exists post | discriminate].
  - cbn [includes]. rewrite orb_true_iff, startsWith_spec, IH. split.
    + intros [[post H] | [pre [post H]]].
      * now exists EmptyString, post.
      * exists (String a pre), post. simpl. now rewrite H.
    + intros [pre [post H]]. destruct pre as [|x pre].
      * left. now exists post.
      * right. simpl in H. injection H as _ H. now exists pre, post.
Qed.

Lemma includes_empty (s : string) : includes s EmptyString = true.
Proof. destruct s; reflexivity. Qed.

Lemma occurs_append (c : ascii) (a b : string) :
  occurs c (a ++ b) = occurs c a || occurs c b.
Proof.
  induction a as [|x a IH]; simpl; [reflexivity|].
  now rewrite IH, orb_assoc.
Qed.

Lemma attributeValue_clean (s rest : string) :
  occurs dquote s = false ->
  attributeValue (s ++ String dquote rest) = s.
Proof.
  induction s as [|a s IH]; simpl; intros H.
  - reflexivity.
  - apply orb_false_iff in H as [Ha Hs]. rewrite Ha, IH by exact Hs. reflexivity.
Qed.

(** ** Selecting a subsequence *)

Lemma Selects_filter {A : Type} (f : A -> bool) (l : list A) :
  Selects (fun x => f x = true) l (filter f l).
Proof.
  induction l as [|x l IH]; simpl.
  - constructor.
  - destruct (f x) eqn:E.
    + now apply Selects_keep.
    + apply Selects_drop; [congruence | exact IH].
Qed.

Lemma Selects_unique {A : Type} (P : A -> Prop) (l r1 r2 : list A) :
  Selects P l r1 -> Selects P l r2 -> r1 = r2.
Proof.
  intros H1; revert r2.
  induction H1 as [|x l r Hx _ IH|x l r Hx _ IH]; intros r2 H2;
    inversion H2; subst; try contradiction; auto.
  f_equal; auto.
Qed.

Lemma Selects_iff {A : Type} (P Q : A -> Prop) (l r : list A) :
  (forall x, P x <-> Q x) -> Selects P l r -> Selects Q l r.
Proof.
  intros HPQ H.
  induction H as [|x l r Hx _ IH|x l r Hx _ IH].
  - constructor.
  - apply Selects_keep; [now apply HPQ | exact IH].
  - apply Selects_drop; [now rewrite <- HPQ | exact IH].
Qed.

(** ** World bookkeeping *)

Lemma requests_app (t u : list Effect) :
  requests (t ++ u) = (requests t ++ requests u)%list.
Proof.
  induction t as [|e t IH]; simpl; [reflexivity|].
  destruct e; simpl; now rewrite IH.
Qed.

Lemma appendRows_spec (movies : list Movie) (children : list Child) :
  appendRows movies children
  = (children ++ map (fun m => Attached (movieElement m)) movies)%list.
Proof.
  revert children; induction movies as [|m ms IH]; intros children; simpl.
  - now rewrite app_nil_r.
  - now rewrite IH, <- app_assoc.
Qed.

Lemma rows_attached (movies : list Movie) :
  rows (map (fun m => Attached (movieElement m)) movies)
  = map (fun m => Attached (movieElement m)) movies.
Proof.
  unfold rows. induction movies as [|m ms IH]; [reflexivity|].
  cbn [map filter]. change (isRow (Attached (movieElement m))) with true.
  cbv iota. now rewrite IH.
Qed.

Lemma renderMovies_view (S : list Movie) (w : World) :
  movieListDiv (renderMovies S w)
  = match S with
    | [] => [Parsed placeholder]
    | _ :: _ => map (fun m => Attached (movieElement m)) S
    end.
Proof.
  unfold renderMovies. destruct S as [|m S].
  - reflexivity.
  - change (Z.of_nat (List.length (m :: S)) =? 0) with false.
    cbn [movieListDiv setMovieListDiv assignInnerHTML falsy].
    now rewrite appendRows_spec.
Qed.

Lemma renderMovies_frame (S : list Movie) (w : World) :
  allMovies (renderMovies S w) = allMovies w
  /\ searchInput (renderMovies S w) = searchInput w
  /\ form (renderMovies S w) = form w
  /\ trace (renderMovies S w) = trace w.
Proof.
  unfold renderMovies.
  destruct (Z.of_nat (List.length S) =? 0); repeat split; reflexivity.
Qed.

Lemma World_eq (w1 w2 : World) :
  allMovies w1 = allMovies w2 ->
  movieListDiv w1 = movieListDiv w2 ->
  searchInput w1 = searchInput w2 ->
  form w1 = form w2 ->
  trace w1 = trace w2 ->
  w1 = w2.
Proof. destruct w1, w2; simpl; congruence. Qed.

(** ** The filter *)

Lemma matches_spec (q : string) (r : Movie) :
  matches (toLowerCase q) r = true <-> MatchesQuery q r.
Proof.
  unfold matches, MatchesQuery.
  now rewrite orb_true_iff, !includes_spec.
Qed.

Lemma filter_empty_query (movies : list Movie) :
  filter (matches EmptyString) movies = movies.
Proof.
  induction movies as [|m ms IH]; simpl; [reflexivity|].
  unfold matches at 1. rewrite includes_empty. simpl. now rewrite IH.
Qed.

Example scenario_query_d :
  filteredMovies (setSearchInput "d" (setAllMovies [dune; heat] initial))
  = [dune].
Proof. reflexivity. Qed.

Example scenario_query_19 :
  filteredMovies (setSearchInput "19" (setAllMovies [dune; heat] initial))
  = [].
Proof. reflexivity. Qed.

Example scenario_query_upper :
  filteredMovies (setSearchInput "CRI" (setAllMovies [dune; heat] initial))
  = [heat].
Proof. reflexivity. Qed.

(** C3. Typing the query [q] into the search box shows exactly the
    subsequence of the cache whose records have the lower-cased [q] as a
    substring of their lower-cased title or genre (the year plays no part),
    the cache itself stays as it was, and the empty query selects the whole
    cache in its order. *)
Theorem search_filter_exact (q : string) (w : World) :
  let typed := setSearchInput q w in
  Selects (MatchesQuery q) (allMovies w) (filteredMovies typed)
  /\ movieListDiv (step (SearchInput q) w)
     = movieListDiv (renderMovies (filteredMovies typed) w)
  /\ allMovies (step (SearchInput q) w) = allMovies w
  /\ filteredMovies (setSearchInput EmptyString w) = allMovies w.
Proof.
  cbv zeta. repeat split.
  - unfold filteredMovies. cbn [searchInput allMovies setSearchInput].
    apply Selects_iff with (P := fun r => matches (toLowerCase q) r = true).
    + intros r. apply matches_spec.
    + apply Selects_filter.
  - cbn [step]. unfold onSearchInput. now rewrite !renderMovies_view.
  - cbn [step]. unfold onSearchInput.
    now destruct (renderMovies_frame (filteredMovies (setSearchInput q w))
                   (setSearchInput q w)) as [-> _].
  - unfold filteredMovies. cbn [searchInput allMovies setSearchInput toLowerCase].
    apply filter_empty_query.
Qed.

(** ** Rendering *)

(** C4. Rendering the empty sequence leaves the placeholder and no row
    element; rendering a non-empty sequence leaves exactly one row element
    per record, in order, whose markup shows the record's title, year and
    genre and carries an edit trigger and a delete trigger that name the
    record's identifier. *)
Theorem render_rows (m : Movie) (S : list Movie) (w : World) :
  movieListDiv (renderMovies [] w) = [Parsed placeholder]
  /\ rows (movieListDiv (renderMovies [] w)) = []
  /\ rows (movieListDiv (renderMovies (m :: S) w))
     = map (fun r => Attached (movieElement r)) (m :: S)
  /\ movieListDiv (renderMovies (m :: S) w)
     = rows (movieListDiv (renderMovies (m :: S) w))
  /\ List.length (rows (movieListDiv (renderMovies (m :: S) w)))
     = List.length (m :: S)
  /\ Forall (fun r =>
       Substring ("<p><strong>" ++ title r ++ "</strong> ("
                  ++ toString (year r) ++ ") - " ++ genre r ++ "</p>")
                 (innerHTML (movieElement r))
       /\ Substring ("<button onclick=" ++ str1 dquote ++ editCall r
                     ++ str1 dquote ++ ">Edit</button>")
                    (innerHTML (movieElement r))
       /\ startsWith (editCall r)
            ("editMoviePrompt(" ++ toString (id r) ++ ", ") = true
       /\ Substring ("<button onclick=" ++ str1 dquote ++ "deleteMovie("
                     ++ toString (id r) ++ ")" ++ str1 dquote
                     ++ ">Delete</button>")
                    (innerHTML (movieElement r)))
     (m :: S).
Proof.
  rewrite !renderMovies_view, rows_attached.
  repeat split; try reflexivity.
  - now rewrite length_map.
  - apply Forall_forall. intros r _.
    cbn [innerHTML movieElement]. unfold rowMarkup.
    repeat split.
    + exists (str1 newline ++ indent12). eexists.
      unfold rowText. rewrite !append_assoc. reflexivity.
    + exists (str1 newline ++ indent12 ++ rowText r ++ str1 newline
              ++ indent12). eexists.
      rewrite !append_assoc. reflexivity.
    + apply startsWith_spec. eexists. unfold editCall.
      rewrite !append_assoc. reflexivity.
    + exists (str1 newline ++ indent12 ++ rowText r ++ str1 newline
              ++ indent12 ++ "<button onclick=" ++ str1 dquote ++ editCall r
              ++ str1 dquote ++ ">Edit</button>" ++ str1 newline ++ indent12).
      eexists. unfold deleteCall. rewrite !append_assoc. reflexivity.
Qed.

(** C9. What [renderMovies] leaves in the listing depends on the sequence
    alone: it is the same from any two worlds, the same whatever was
    rendered before, rendering twice is rendering once, and nothing but the
    listing changes. *)
Theorem render_idempotent (S S' : list Movie) (w w' : World) :
  movieListDiv (renderMovies S w) = movieListDiv (renderMovies S w')
  /\ movieListDiv (renderMovies S (renderMovies S' w))
     = movieListDiv (renderMovies S w)
  /\ renderMovies S (renderMovies S w) = renderMovies S w
  /\ allMovies (renderMovies S w) = allMovies w
  /\ trace (renderMovies S w) = trace w.
Proof.
  destruct (renderMovies_frame S w) as (Ha & Hs & Hf & Ht).
  destruct (renderMovies_frame S (renderMovies S w)) as (Ha' & Hs' & Hf' & Ht').
  repeat split; try assumption.
  - now rewrite !renderMovies_view.
  - now rewrite !renderMovies_view.
  - apply World_eq; try congruence. now rewrite !renderMovies_view.
Qed.

(** ** Escaping *)

Lemma replaceAll_append (c : ascii) (b s t : string) :
  replaceAll c b (s ++ t) = replaceAll c b s ++ replaceAll c b t.
Proof.
  induction s as [|a s IH]; simpl; [reflexivity|].
  destruct (Ascii.eqb a c); rewrite IH; [now rewrite append_assoc | reflexivity].
Qed.

Lemma replaceAll_absent (c : ascii) (b s : string) :
  occurs c s = false -> replaceAll c b s = s.
Proof.
  induction s as [|a s IH]; simpl; [reflexivity|].
  intros H. apply orb_false_iff in H as [Ha Hs]. now rewrite Ha, IH.
Qed.

(** Every single quote is replaced: none is left in the result. *)
Lemma escaped_has_no_single_quote (s : string) :
  occurs squote (replaceAll squote "&#39;" s) = false.
Proof.
  induction s as [|a s IH]; [reflexivity|].
  cbn [replaceAll]. destruct (Ascii.eqb a squote) eqn:E.
  - rewrite occurs_append, IH. reflexivity.
  - cbn [occurs]. now rewrite E, IH.
Qed.


Example escapeQuotes_every_occurrence :
  escapeQuotes (VString "Rock'n'Roll") = VString "Rock&#39;n&#39;Roll".
Proof. reflexivity. Qed.

Example escapeQuotes_number : escapeQuotes (VNumber 7) = VNumber 7.
Proof. reflexivity. Qed.

(** C1, at the record [sayHi], whose title is [Say "Hi"]: the title's
    double quotes are written unescaped inside the double-quoted [onclick]
    attribute of the edit button, so the attribute value the markup
    delimits stops in the middle of the title. *)
Theorem double_quote_reaches_onclick :
  exists pre post,
    innerHTML (movieElement sayHi)
    = pre ++ "<button onclick=" ++ str1 dquote
          ++ editCall sayHi ++ str1 dquote ++ post
    /\ occurs dquote (editCall sayHi) = true
    /\ attributeValue (editCall sayHi ++ str1 dquote ++ post)
       = "editMoviePrompt(1, 'Say ".
Proof.
  exists (str1 newline ++ indent12 ++ rowText sayHi ++ str1 newline ++ indent12).
  eexists. split; [|split].
  - cbn [innerHTML movieElement]. unfold rowMarkup.
    rewrite !append_assoc. reflexivity.
  - reflexivity.
  - reflexivity.
Qed.

(** C10. The row's markup is the template with the record's title, year
    and genre written as they are into the paragraph; only the copies of
    title and genre inside the edit call went through the quote
    replacement. *)
Theorem row_text_is_verbatim (r : Movie) :
  innerHTML (movieElement r)
  = str1 newline ++ indent12
    ++ "<p><strong>" ++ title r ++ "</strong> (" ++ toString (year r)
    ++ ") - " ++ genre r ++ "</p>"
    ++ str1 newline ++ indent12
    ++ "<button onclick=" ++ str1 dquote
    ++ "editMoviePrompt(" ++ toString (id r) ++ ", '"
    ++ replaceAll squote "&#39;" (title r) ++ "', " ++ toString (year r)
    ++ "," ++ str1 newline ++ "                '"
    ++ replaceAll squote "&#39;" (genre r) ++ "')"
    ++ str1 dquote ++ ">Edit</button>"
    ++ str1 newline ++ indent12
    ++ "<button onclick=" ++ str1 dquote
    ++ "deleteMovie(" ++ toString (id r) ++ ")"
    ++ str1 dquote ++ ">Delete</button>"
    ++ str1 newline ++ "        ".
Proof.
  cbn [innerHTML movieElement].
  unfold rowMarkup, rowText, editCall, deleteCall.
  cbn [escapeQuotes toString].
  rewrite !append_assoc. reflexivity.
Qed.

Example markup_title_shown_verbatim :
  Substring "<p><strong><b>It's</b></strong> (1999) - Rock'n'Roll</p>"
            (innerHTML (movieElement itsBold))
  /\ Substring "'<b>It&#39;s</b>', 1999"
               (innerHTML (movieElement itsBold)).
Proof. split; apply includes_spec; reflexivity. Qed.

(** ** Loading the collection *)

(** C5. When the load fails, by a network error or by any status outside
    200..299, the world changes by one console error and nothing else: the
    cache, the listing, the form and the requests sent are as before.  When
    it succeeds, the cache becomes the server's array, whatever it held,
    and the listing is the rendering of that whole array. *)
Theorem load_settles (o : Outcome) (w : World) :
  let w' := step (Settled FetchMoviesChain o) w in
  (failure o = true ->
     allMovies w' = allMovies w
     /\ movieListDiv w' = movieListDiv w
     /\ form w' = form w
     /\ requests (trace w') = requests (trace w)
     /\ exists e, w' = emit (ConsoleError "Error fetching movies:" e) w)
  /\ (forall movies, success o = Some movies ->
        allMovies w' = movies
        /\ movieListDiv w' = movieListDiv (renderMovies movies w)
        /\ trace w' = trace w).
Proof.
  cbv zeta. cbn [step settled]. split.
  - intros Hf. destruct o as [|status json]; cbn [failure] in Hf;
      unfold fetchMoviesSettled; [|rewrite Hf];
      (repeat split; try reflexivity;
       [cbn [trace emit]; rewrite requests_app; cbn [requests];
        now rewrite app_nil_r
       | eexists; reflexivity]).
  - intros movies Hs. destruct o as [|status [ms|]]; try discriminate.
    cbn [success] in Hs. destruct (ok status) eqn:Hok; [|discriminate].
    injection Hs as ->. unfold fetchMoviesSettled. rewrite Hok. cbn [negb].
    cbv zeta. cbn [allMovies setAllMovies].
    destruct (renderMovies_frame movies (setAllMovies movies w))
      as (Ha & _ & _ & Ht).
    repeat split; [exact Ha | now rewrite !renderMovies_view | exact Ht].
Qed.

Lemma load_settles_witness :
  (failure (Responded 404 None) = true
   /\ allMovies (step (Settled FetchMoviesChain (Responded 404 None))
                      (setAllMovies [dune; heat] initial)) = [dune; heat])
  /\ (success (Responded 200 (Some [heat])) = Some [heat]
      /\ allMovies (step (Settled FetchMoviesChain (Responded 200 (Some [heat])))
                         (setAllMovies [dune; heat] initial)) = [heat]).
Proof.
  split.
  - split; [reflexivity|].
    destruct (load_settles (Responded 404 None)
                (setAllMovies [dune; heat] initial)) as [Hfail _].
    apply Hfail. reflexivity.
  - split; [reflexivity|].
    destruct (load_settles (Responded 200 (Some [heat]))
                (setAllMovies [dune; heat] initial)) as [_ Hok].
    apply Hok. reflexivity.
Defined.

(** A body that is not JSON is logged in the same way. *)
Lemma load_bad_json (status : Z) (w : World) :
  ok status = true ->
  step (Settled FetchMoviesChain (Responded status None)) w
  = emit (ConsoleError "Error fetching movies:" JsonError) w.
Proof. intros H. cbn [step settled]. unfold fetchMoviesSettled. now rewrite H. Qed.

(** ** Deleting *)

(** C6. [deleteMovie] asks for the confirmation before anything else.  On
    a refusal the confirmation is the only effect: no request is sent and
    the cache is as before.  On an acceptance the DELETE for the record
    follows the confirmation. *)
Theorem delete_waits_for_confirmation (movieId : value) (w : World) :
  let question := "Are you sure you want to delete this movie?" in
  trace (step (ClickDelete movieId false) w)
  = (trace w ++ [Confirm question false])%list
  /\ requests (trace (step (ClickDelete movieId false) w))
     = requests (trace w)
  /\ allMovies (step (ClickDelete movieId false) w) = allMovies w
  /\ movieListDiv (step (ClickDelete movieId false) w) = movieListDiv w
  /\ trace (step (ClickDelete movieId true) w)
     = (trace w
        ++ [Confirm question true;
            Fetch (mkRequest DELETE (API_URL ++ "/" ++ toString movieId)
                     [] None) DeleteMovieChain])%list
  /\ allMovies (step (ClickDelete movieId true) w) = allMovies w.
Proof.
  cbv zeta. cbn [step]. unfold deleteMovie. cbn [negb].
  repeat split.
  - cbn [trace emit]. rewrite requests_app. cbn [requests].
    now rewrite app_nil_r.
  - cbn [trace emit]. now rewrite <- app_assoc.
Qed.

(** ** Editing *)

Lemma parseInt_cases (s : string) :
  (exists n, parseInt s = VNumber n) \/ parseInt s = VNaN.
Proof.
  unfold parseInt.
  destruct (match trimStart s with
            | String c r =>
                if Ascii.eqb c "-" then (-1, r)
                else if Ascii.eqb c "+" then (1, r) else (1, trimStart s)
            | EmptyString => (1, trimStart s)
            end) as [sign s1].
  destruct (match stripHexPrefix s1 with
            | Some r => (16, r)
            | None => (10, s1)
            end) as [radix s2].
  destruct (readDigits radix None s2) as [n|]; [left; now eexists | now right].
Qed.

Lemma requests_unchanged (t u : list Effect) :
  requests (t ++ u) = requests t <-> requests u = [].
Proof.
  rewrite requests_app. split.
  - intros H. apply (app_inv_head (requests t)). now rewrite app_nil_r.
  - intros ->. apply app_nil_r.
Qed.

(** C7. The edit never touches the cache or the listing.  If one of the
    three prompts is cancelled, the prompts are all that happened: no
    request is sent.  A request is sent exactly when the three prompts were
    answered and [parseInt] reads a number from the year; it is then the
    one PUT carrying the three new values.  An answered year that is not a
    number ends in the alert instead. *)
Theorem edit_cancel_aborts
    (id ct cy cg : value) (a1 a2 a3 : option string) (w : World) :
  let w' := step (ClickEdit id ct cy cg a1 a2 a3) w in
  let prompts :=
    [Prompt "Enter new Title:" ct a1;
     Prompt "Enter new Year:" cy a2;
     Prompt "Enter new Genre:" cg a3] in
  allMovies w' = allMovies w
  /\ movieListDiv w' = movieListDiv w
  /\ (a1 = None \/ a2 = None \/ a3 = None ->
        trace w' = (trace w ++ prompts)%list
        /\ requests (trace w') = requests (trace w))
  /\ (requests (trace w') <> requests (trace w) <->
        exists t y g n,
          a1 = Some t /\ a2 = Some y /\ a3 = Some g
          /\ parseInt y = VNumber n)
  /\ (forall t y g n,
        a1 = Some t -> a2 = Some y -> a3 = Some g ->
        parseInt y = VNumber n ->
        trace w'
        = (trace w ++ prompts
           ++ [Fetch (mkRequest PUT (API_URL ++ "/" ++ toString id)
                        jsonHeaders
                        (Some [("title", VString t);
                               ("year", VNumber n);
                               ("genre", VString g)]))
                     UpdateMovieChain])%list)
  /\ (forall t y g,
        a1 = Some t -> a2 = Some y -> a3 = Some g ->
        parseInt y = VNaN ->
        trace w'
        = (trace w ++ prompts ++ [Alert "Year must be a number."])%list).
Proof.
  cbv zeta. cbn [step]. unfold editMoviePrompt, updateMovie. cbv zeta.
  assert (Hprompts : forall x y z : Effect,
             trace (emit z (emit y (emit x w))) = (trace w ++ [x; y; z])%list).
  { intros. cbn [trace emit]. now rewrite <- !app_assoc. }
  assert (Hquiet : forall x y z : Effect,
             requests [x; y; z] = [] ->
             requests (trace (emit z (emit y (emit x w)))) = requests (trace w)).
  { intros x y z H. rewrite Hprompts. now apply requests_unchanged. }
  destruct a1 as [t|], a2 as [y|], a3 as [g|];
    try (split; [reflexivity|]; split; [reflexivity|];
         split; [intros _; split; [apply Hprompts | now apply Hquiet]|];
         split; [split;
                 [ intros H; exfalso; apply H; now apply Hquiet
                 | intros (t' & y' & g' & n' & H1 & H2 & H3 & _); congruence ]|];
         split; intros; congruence).
  destruct (parseInt_cases y) as [[n Hn] | Hn]; rewrite Hn; cbn [isNaN];
    (split; [reflexivity|]; split; [reflexivity|];
     split; [intros [H | [H | H]]; discriminate|];
     split; [split|split]).
  - intros _. now exists t, y, g, n.
  - intros _. cbn [trace emit]. rewrite <- !app_assoc. cbn [app].
    intros H. apply requests_unchanged in H. discriminate.
  - intros t' y' g' n' H1 H2 H3 H4.
    injection H1 as <-. injection H2 as <-. injection H3 as <-.
    rewrite Hn in H4. injection H4 as <-.
    cbn [trace emit]. now rewrite <- !app_assoc.
  - intros t' y' g' _ H2 _ H4. injection H2 as <-. congruence.
  - intros H. exfalso. apply H.
    cbn [trace emit]. rewrite <- !app_assoc. cbn [app].
    now apply requests_unchanged.
  - intros (t' & y' & g' & n' & _ & H2 & _ & H4).
    injection H2 as <-. congruence.
  - intros t' y' g' n' _ H2 _ H4. injection H2 as <-. congruence.
  - intros t' y' g' H1 H2 H3 _.
    injection H1 as <-. injection H2 as <-. injection H3 as <-.
    cbn [trace emit]. now rewrite <- !app_assoc.
Qed.

Lemma edit_cancel_aborts_witness :
  (Some "Dune" = None \/ @None string = None \/ Some "Sci-Fi" = None)
  /\ requests (trace (step (ClickEdit (VNumber 1) (VString "Dune")
                              (VNumber 2021) (VString "Sci-Fi")
                              (Some "Dune") None (Some "Sci-Fi"))
                           initial))
     = requests (trace initial).
Proof.
  assert (Hc : Some "Dune" = None \/ @None string = None
               \/ Some "Sci-Fi" = None).
  { right; left; reflexivity. }
  split; [exact Hc|].
  destruct (edit_cancel_aborts (VNumber 1) (VString "Dune") (VNumber 2021)
              (VString "Sci-Fi") (Some "Dune") None (Some "Sci-Fi") initial)
    as (_ & _ & Hcancel & _).
  apply (Hcancel Hc).
Defined.

Example edit_year_abcd_alerts :
  trace (step (ClickEdit (VNumber 1) (VString "Dune") (VNumber 2021)
                 (VString "Sci-Fi") (Some "Dune") (Some "abcd") (Some "Sci-Fi"))
              initial)
  = [Prompt "Enter new Title:" (VString "Dune") (Some "Dune");
     Prompt "Enter new Year:" (VNumber 2021) (Some "abcd");
     Prompt "Enter new Genre:" (VString "Sci-Fi") (Some "Sci-Fi");
     Alert "Year must be a number."].
Proof. reflexivity. Qed.

(** ** Creating *)

(** What the submit listener does, by the three inputs. *)
Lemma submit_outcome (w : World) :
  trace (step Submit w)
  = (trace w
     ++ [PreventDefault;
         if falsy (titleInput (form w)) || falsy (genreInput (form w))
            || falsy (yearInput (form w))
         then Alert "Please fill in all fields."
         else Fetch (mkRequest POST API_URL jsonHeaders
                       (Some [("title", VString (titleInput (form w)));
                              ("genre", VString (genreInput (form w)));
                              ("year", parseInt (yearInput (form w)))]))
                    AddMovieChain])%list.
Proof.
  cbn [step]. unfold onSubmit. cbv zeta. cbn [form emit].
  destruct (falsy (titleInput (form w)) || falsy (genreInput (form w))
            || falsy (yearInput (form w)));
    cbn [trace emit]; now rewrite <- app_assoc.
Qed.

(** C2, at the form [abcdForm] (title Dune, genre Sci-Fi, year abcd):
    submitting raises no alert and sends the POST, with NaN for the
    year. *)
Theorem create_year_abcd_is_sent (w : World) :
  trace (step Submit (step (FormInput abcdForm) w))
  = (trace w
     ++ [PreventDefault;
         Fetch (mkRequest POST API_URL jsonHeaders
                  (Some [("title", VString "Dune");
                         ("genre", VString "Sci-Fi");
                         ("year", VNaN)]))
               AddMovieChain])%list.
Proof. rewrite submit_outcome. reflexivity. Qed.

(** ** Mutations and the cache *)

Lemma step_cache (e : Event) (w : World) :
  allMovies (step e w) = allMovies w
  \/ exists status movies,
       e = Settled FetchMoviesChain (Responded status (Some movies))
       /\ ok status = true
       /\ allMovies (step e w) = movies.
Proof.
  destruct e as [| text | f | | i t y g a1 a2 a3 | i a | k o]; cbn [step].
  - now left.
  - left. unfold onSearchInput.
    now destruct (renderMovies_frame (filteredMovies (setSearchInput text w))
                    (setSearchInput text w)) as [-> _].
  - now left.
  - left. unfold onSubmit. cbv zeta.
    now destruct (_ || _).
  - left. unfold editMoviePrompt, updateMovie. cbv zeta.
    destruct a1, a2, a3; try reflexivity. now destruct (isNaN _).
  - left. unfold deleteMovie. now destruct a.
  - destruct k; cbn [settled].
    + destruct o as [|status [movies|]]; unfold fetchMoviesSettled;
        try (now left); destruct (ok status) eqn:Hok; try (now left).
      right. exists status, movies.
      split; [reflexivity|]. split; [exact Hok|].
      cbn [negb]. cbv zeta. cbn [allMovies setAllMovies].
      now destruct (renderMovies_frame movies (setAllMovies movies w)) as [-> _].
    + left. unfold addMovieSettled.
      destruct o as [|status [movies|]]; try reflexivity;
        now destruct (ok status).
    + left. unfold updateMovieSettled.
      destruct o as [|status [movies|]]; try reflexivity;
        now destruct (ok status).
    + left. unfold deleteMovieSettled.
      destruct o as [|status json]; try reflexivity; now destruct (ok status).
Qed.

(** C8. When a create, an update or a delete succeeded, its callback
    leaves the cache and the listing as they are and sends the GET of the
    whole collection, after resetting the form in the case of a create; the
    answer to that GET, if it is a success, becomes the cache as a whole.
    No event changes the cache in any other way. *)
Theorem mutation_success_refetches (k : Chain) (o : Outcome) (w : World) :
  mutationSucceeded k o = true ->
  let w' := step (Settled k o) w in
  allMovies w' = allMovies w
  /\ movieListDiv w' = movieListDiv w
  /\ trace w'
     = (trace w
        ++ match k with AddMovieChain => [FormReset] | _ => [] end
        ++ [refetch])%list
  /\ form w' = match k with AddMovieChain => formDefaults | _ => form w end
  /\ (forall status movies,
        allMovies (step (Settled FetchMoviesChain
                           (Responded status (Some movies))) w')
        = if ok status then movies else allMovies w)
  /\ (forall e w0,
        allMovies (step e w0) = allMovies w0
        \/ exists status movies,
             e = Settled FetchMoviesChain (Responded status (Some movies))
             /\ ok status = true
             /\ allMovies (step e w0) = movies).
Proof.
  intros Hs. cbv zeta.
  assert (Hload : forall status movies w1,
             allMovies (step (Settled FetchMoviesChain
                                (Responded status (Some movies))) w1)
             = if ok status then movies else allMovies w1).
  { intros status movies w1. cbn [step settled]. unfold fetchMoviesSettled.
    destruct (ok status); cbn [negb]; [|reflexivity].
    cbv zeta. cbn [allMovies setAllMovies].
    now destruct (renderMovies_frame movies (setAllMovies movies w1)) as [-> _]. }
  assert (Hw : step (Settled k o) w
               = match k with
                 | AddMovieChain =>
                     fetchMovies (emit FormReset (setForm formDefaults w))
                 | _ => fetchMovies w
                 end).
  { destruct k, o as [|status [movies|]]; try discriminate;
      cbn [mutationSucceeded] in Hs; cbn [step settled];
      unfold addMovieSettled, updateMovieSettled, deleteMovieSettled;
      rewrite Hs; reflexivity. }
  repeat match goal with |- _ /\ _ => split end.
  - rewrite Hw. now destruct k.
  - rewrite Hw. now destruct k.
  - rewrite Hw. destruct k; unfold fetchMovies, refetch; cbn [trace emit app];
      try reflexivity. now rewrite <- app_assoc.
  - rewrite Hw. now destruct k.
  - intros status movies. rewrite Hload, Hw. now destruct k.
  - apply step_cache.
Qed.

Lemma mutation_success_refetches_witness :
  mutationSucceeded AddMovieChain (Responded 201 (Some [dune])) = true
  /\ trace (step (Settled AddMovieChain (Responded 201 (Some [dune])))
                 (setForm abcdForm initial))
     = [FormReset; refetch].
Proof.
  split; [reflexivity|].
  apply (mutation_success_refetches AddMovieChain (Responded 201 (Some [dune]))
           (setForm abcdForm initial) eq_refl).
Defined.

Example create_then_load :
  run [FormInput (mkForm "Heat" "Crime" "1995");
       Submit;
       Settled AddMovieChain (Responded 201 (Some [heat]));
       Settled FetchMoviesChain (Responded 200 (Some [dune; heat]))]
      (setAllMovies [dune] initial)
  = mkWorld [dune; heat]
      [Attached (movieElement dune); Attached (movieElement heat)]
      EmptyString formDefaults
      [PreventDefault;
       Fetch (mkRequest POST API_URL jsonHeaders
                (Some [("title", VString "Heat");
                       ("genre", VString "Crime");
                       ("year", VNumber 1995)])) AddMovieChain;
       FormReset;
       refetch].
Proof. reflexivity. Qed.

(** * Further properties of the script *)

(** ** escapeQuotes *)

Lemma length_append (a b : string) :
  String.length (a ++ b) = (String.length a + String.length b)%nat.
Proof. induction a as [|x a IH]; simpl; [reflexivity | now rewrite IH]. Qed.

(** X1. The result of [escapeQuotes] on a string holds no single quote, and it
    is longer than the argument by four code units for each single quote
    of the argument. *)
Theorem escapeQuotes_result (s : string) :
  exists s',
    escapeQuotes (VString s) = VString s'
    /\ occurs squote s' = false
    /\ String.length s' = (String.length s + 4 * count squote s)%nat.
Proof.
  exists (replaceAll squote "&#39;" s). split; [reflexivity|].
  split; [apply escaped_has_no_single_quote|].
  induction s as [|a s IH]; [reflexivity|].
  cbn [replaceAll count String.length].
  destruct (Ascii.eqb a squote).
  - rewrite length_append, IH. cbn [String.length]. lia.
  - cbn [String.length]. rewrite IH. lia.
Qed.

(** X2. [escapeQuotes] returns its argument when that is not a string, or is a
    string without a single quote. *)
Theorem escapeQuotes_identity (v : value) :
  match v with
  | VString s => occurs squote s = false
  | _ => True
  end ->
  escapeQuotes v = v.
Proof.
  destruct v as [s| | | |]; try reflexivity.
  intros H. cbn [escapeQuotes]. now rewrite replaceAll_absent.
Qed.

Lemma escapeQuotes_identity_witness :
  occurs squote "Sci-Fi" = false
  /\ escapeQuotes (VString "Sci-Fi") = VString "Sci-Fi".
Proof.
  split; [reflexivity|].
  apply (escapeQuotes_identity (VString "Sci-Fi")). reflexivity.
Defined.

(** ** Numbers as text *)




(** ** parseInt on numerals *)











(** X6. [parseInt] gives NaN on the empty string and on any text whose first
    code unit is not white space, a sign or a decimal digit. *)
Theorem parseInt_not_a_number (c : ascii) (r : string) :
  isWhiteSpace c = false ->
  c <> "-"%char -> c <> "+"%char ->
  digitValue 10 c = None ->
  parseInt (String c r) = VNaN /\ parseInt EmptyString = VNaN.
Proof.
  intros Hw Hm Hp Hd. split; [|reflexivity].
  unfold parseInt. cbn [trimStart]. rewrite Hw.
  apply Ascii.eqb_neq in Hm, Hp. rewrite Hm, Hp.
  assert (Hz : Ascii.eqb c "0" = false).
  { apply Ascii.eqb_neq. intros ->. discriminate. }
  assert (Hx : stripHexPrefix (String c r) = None).
  { cbn [stripHexPrefix]. destruct r; [reflexivity|]. now rewrite Hz. }
  rewrite Hx. cbn [readDigits]. now rewrite Hd.
Qed.

Lemma parseInt_not_a_number_witness :
  parseInt "abcd" = VNaN /\ parseInt EmptyString = VNaN.
Proof.
  apply (parseInt_not_a_number "a" "bcd"); try reflexivity; discriminate.
Defined.


(** ** Validation and failures *)

(** X8. Submitting the form changes neither the cache, the listing nor the
    inputs.  If one of the three inputs is empty the only answer is the
    alert; otherwise the POST built from the three inputs is sent, whatever
    [parseInt] made of the year. *)
Theorem submit_validation (w : World) :
  let w' := step Submit w in
  let blank := falsy (titleInput (form w)) || falsy (genreInput (form w))
               || falsy (yearInput (form w)) in
  let post := mkRequest POST API_URL jsonHeaders
                (Some [("title", VString (titleInput (form w)));
                       ("genre", VString (genreInput (form w)));
                       ("year", parseInt (yearInput (form w)))]) in
  allMovies w' = allMovies w
  /\ movieListDiv w' = movieListDiv w
  /\ form w' = form w
  /\ requests (trace w')
     = (requests (trace w) ++ if blank then [] else [post])%list
  /\ trace w'
     = (trace w
        ++ [PreventDefault;
            if blank then Alert "Please fill in all fields."
            else Fetch post AddMovieChain])%list.
Proof.
  cbv zeta. rewrite submit_outcome, requests_app. cbn [step].
  unfold onSubmit. cbv zeta. cbn [form emit].
  destruct (falsy (titleInput (form w)) || falsy (genreInput (form w))
            || falsy (yearInput (form w))); repeat split.
Qed.

(** X9. When a request fails, by a network error or by a status outside
    200..299, the callbacks of its chain write one console error and do
    nothing else, whichever request it was: the cache, the listing and the
    form stay as they are and no request follows. *)
Theorem failure_only_logs (k : Chain) (o : Outcome) (w : World) :
  failure o = true ->
  let w' := step (Settled k o) w in
  allMovies w' = allMovies w
  /\ movieListDiv w' = movieListDiv w
  /\ form w' = form w
  /\ requests (trace w') = requests (trace w)
  /\ exists label e, trace w' = (trace w ++ [ConsoleError label e])%list.
Proof.
  intros Hf. cbv zeta.
  assert (H : exists label e,
             step (Settled k o) w = emit (ConsoleError label e) w).
  { cbn [step]. destruct o as [|status json]; cbn [failure] in Hf.
    - destruct k; cbn [settled]; do 2 eexists; reflexivity.
    - destruct k; cbn [settled];
        unfold fetchMoviesSettled, addMovieSettled, updateMovieSettled,
          deleteMovieSettled; rewrite Hf; do 2 eexists; reflexivity. }
  destruct H as (label & e & ->). repeat split.
  - cbn [trace emit]. rewrite requests_app. cbn [requests]. apply app_nil_r.
  - now exists label, e.
Qed.

Lemma failure_only_logs_witness :
  failure (Responded 500 None) = true
  /\ form (step (Settled AddMovieChain (Responded 500 None))
                (setForm abcdForm initial)) = abcdForm.
Proof.
  split; [reflexivity|].
  apply (failure_only_logs AddMovieChain (Responded 500 None)
           (setForm abcdForm initial) eq_refl).
Defined.

(** X10. A success status whose body is not JSON counts as a failure for the
    create, the update and the load, whose callbacks parse the body: they
    log and stop.  The delete callback parses nothing and fetches the list
    again. *)
Theorem success_status_without_json (status : Z) (w : World) :
  ok status = true ->
  step (Settled AddMovieChain (Responded status None)) w
  = emit (ConsoleError "Error adding movie:" JsonError) w
  /\ step (Settled UpdateMovieChain (Responded status None)) w
     = emit (ConsoleError "Error updating movie:" JsonError) w
  /\ step (Settled FetchMoviesChain (Responded status None)) w
     = emit (ConsoleError "Error fetching movies:" JsonError) w
  /\ step (Settled DeleteMovieChain (Responded status None)) w
     = emit refetch w.
Proof.
  intros Hok. cbn [step settled].
  unfold addMovieSettled, updateMovieSettled, fetchMoviesSettled,
    deleteMovieSettled, fetchMovies, refetch.
  rewrite Hok. repeat split.
Qed.

Lemma success_status_without_json_witness :
  ok 204 = true
  /\ trace (step (Settled DeleteMovieChain (Responded 204 None)) initial)
     = [refetch].
Proof.
  split; [reflexivity|].
  destruct (success_status_without_json 204 initial eq_refl)
    as (_ & _ & _ & ->).
  reflexivity.
Defined.

(** ** Searching *)





(** X11. A record of the cache is among the search results whenever the query
    occurs in its title or in its genre, in whatever letter case the query
    or the record has it. *)
Theorem search_finds_fragment (q : string) (r : Movie) (w : World) :
  In r (allMovies w) ->
  Substring (toLowerCase q) (toLowerCase (title r))
  \/ Substring (toLowerCase q) (toLowerCase (genre r)) ->
  In r (filteredMovies (setSearchInput q w)).
Proof.
  intros Hin Hq. unfold filteredMovies.
  cbn [searchInput allMovies setSearchInput].
  apply filter_In. split; [exact Hin|]. now apply matches_spec.
Qed.

Lemma search_finds_fragment_witness :
  In heat (filteredMovies (setSearchInput "CRI" (setAllMovies [dune; heat] initial))).
Proof.
  apply (search_finds_fragment "CRI" heat (setAllMovies [dune; heat] initial)).
  - right; left; reflexivity.
  - right. apply includes_spec. reflexivity.
Defined.



(** ** Invariants of the event loop *)
















Example unconfirmed_delete_is_not_guarded :
  guarded None
    [Confirm "Are you sure you want to delete this movie?" false;
     Fetch (mkRequest DELETE (API_URL ++ "/1") [] None) DeleteMovieChain]
  = false.
Proof. reflexivity. Qed.

(** ** Single quotes in the edit call *)



